(** * AIMS client: request shaping of [AIMSClientInstance]

    A shallow embedding of [src/aims-client.ts].  Every method of the class
    builds one object literal (the request descriptor, [APIRequestParams]) from
    the instance fields and its arguments, hands it to one method of the
    [AlApiClient] collaborator, awaits the answer and returns it, for six list
    methods after reading one field of it.

    The collaborator lives in another package ([@al/client]); a method body is
    therefore a program over its calls ([Prog]), and a client is whatever
    answers them ([AlApiClient]). *)

From Stdlib Require Import String Ascii List ZArith Bool Lia.
From Stdlib Require Import DecimalString.
Import ListNotations.

Local Open Scope string_scope.
Local Open Scope Z_scope.

Set Warnings "-register-all".

(** ** JavaScript values *)

Module JS.

(** The values that travel through the methods: arguments typed [any]
    ([permissions], [codes], [queryParams]) and the answers of the client:
    data, no functions.  An object is the list of its own properties;
    numbers are the integers. *)
Inductive value : Type :=
| Undefined
| Null
| Bool (b : bool)
| Num (z : Z)
| Str (s : string)
| Arr (elems : list value)
| Obj (props : list (string * value)).

(** The double quote character, for the templates that contain it. *)
Definition dquote : string := String (ascii_of_nat 34) EmptyString.

Definition quoted (s : string) : string := dquote ++ s ++ dquote.

(** Own property lookup in an object literal. *)
Fixpoint lookup (name : string) (props : list (string * value)) : option value :=
  match props with
  | [] => None
  | (k, v) :: rest => if String.eqb k name then Some v else lookup name rest
  end.

(** [ToString], as a template literal applies it to [${e}]; [None] is the
    [TypeError] it throws.  An array joins its elements with commas,
    printing [undefined] and [null] as nothing.  An object is printed by its
    [toString]: the inherited one gives [[object Object]]; an own property
    [toString] hides it, and since no value here is a function, neither it
    nor [valueOf] yields a primitive and the conversion throws.  A number
    prints in decimal, which is its text for the safe integers (magnitude
    below 2^53). *)
Fixpoint ToString (v : value) : option string :=
  match v with
  | Undefined => Some "undefined"
  | Null => Some "null"
  | Bool b => Some (if b then "true" else "false")
  | Num z => Some (NilZero.string_of_int (Z.to_int z))
  | Str s => Some s
  | Arr elems =>
      let elem (e : value) : option string :=
        match e with
        | Undefined | Null => Some EmptyString
        | _ => ToString e
        end in
      (fix join (l : list value) : option string :=
         match l with
         | [] => Some EmptyString
         | e :: [] => elem e
         | e :: rest =>
             match elem e, join rest with
             | Some first, Some others => Some (first ++ "," ++ others)
             | _, _ => None
             end
         end) elems
  | Obj props =>
      match lookup "toString" props with
      | Some _ => None
      | None => Some "[object Object]"
      end
  end.

End JS.

(** ** Request descriptors and the client *)

(** The object literal a method passes to [fetch], [post], [set] or [delete].
    [service_name], [environment] and [path] are written by every method;
    the other fields are [None] where the literal does not have them. *)
Record APIRequestParams : Type := mkParams {
  service_name : string;
  environment : string;
  account_id : option string;
  path : string;
  params : option JS.value;
  data : option JS.value;
  ttl : option Z;
  retry_count : option Z
}.

(** The four request methods of the client. *)
Inductive Verb : Type := fetch | post | set | delete.

(** One call on the client: a request with its descriptor, or one of the two
    authentication calls, which take their arguments positionally. *)
Inductive ClientCall : Type :=
| Request (verb : Verb) (descriptor : APIRequestParams)
| Authenticate (user pass : string) (mfa : option string) (env : string)
| AuthenticateWithMFASessionToken (token mfa : string) (env : string).

(** What went wrong when a method's promise is rejected: the client's own
    rejection, passed through untouched, or a [TypeError] of the language:
    a property read of [undefined] or [null], a value that a template
    literal cannot convert to a string. *)
Inductive Failure : Type :=
| Rejection (reason : JS.value)
| TypeError.

(** A settled promise. *)
Inductive Settled (A : Type) : Type :=
| Resolved (a : A)
| Rejected (f : Failure).
Arguments Resolved {A} a.
Arguments Rejected {A} f.

(** The collaborator: it answers a call with a value or rejects it. *)
Definition AlApiClient : Type := ClientCall -> Settled JS.value.

(** ** Method bodies *)

(** The body of a method: it returns, throws, awaits a call on the client and
    goes on with the answer, or assigns [this.environment] and goes on. *)
Inductive Prog (A : Type) : Type :=
| Ret (a : A)
| Throw (f : Failure)
| Await (c : ClientCall) (k : JS.value -> Prog A)
| Assign (env : string) (k : Prog A).
Arguments Ret {A} a.
Arguments Throw {A} f.
Arguments Await {A} c k.
Arguments Assign {A} env k.

Fixpoint bind {A B : Type} (p : Prog A) (f : A -> Prog B) : Prog B :=
  match p with
  | Ret a => f a
  | Throw e => Throw e
  | Await c k => Await c (fun v => bind (k v) f)
  | Assign env k => Assign env (bind k f)
  end.

Definition await (c : ClientCall) : Prog JS.value := Await c Ret.

Declare Scope prog_scope.
Delimit Scope prog_scope with prog.
Notation "'const' x '<-' c ';;' k" := (bind c (fun x => k))
  (at level 100, x name, c at next level, right associativity) : prog_scope.

(** Running a body against a client: the calls made, in order, and how the
    promise settles.  An awaited rejection rejects the method. *)
Fixpoint run {A : Type} (client : AlApiClient) (p : Prog A)
  : list ClientCall * Settled A :=
  match p with
  | Ret a => ([], Resolved a)
  | Throw e => ([], Rejected e)
  | Await c k =>
      match client c with
      | Resolved v => let (calls, r) := run client (k v) in (c :: calls, r)
      | Rejected e => ([c], Rejected e)
      end
  | Assign _ k => run client k
  end.

(** The first call of a body, if it makes one. *)
Fixpoint first_call {A : Type} (p : Prog A) : option ClientCall :=
  match p with
  | Await c _ => Some c
  | Assign _ k => first_call k
  | Ret _ | Throw _ => None
  end.

(** [${e}] in a template literal: the text of [e], or the [TypeError] of
    the conversion. *)
Definition splice (e : JS.value) : Prog string :=
  match JS.ToString e with
  | Some text => Ret text
  | None => Throw TypeError
  end.

(** [response.name], for the five envelope names ([accounts], [account_ids],
    [roles], [users], [access_keys]): none of them is a property of arrays,
    strings, numbers or booleans, nor inherited by plain objects. *)
Definition get (response : JS.value) (name : string) : Prog JS.value :=
  match response with
  | JS.Undefined | JS.Null => Throw TypeError
  | JS.Obj props =>
      match JS.lookup name props with
      | Some v => Ret v
      | None => Ret JS.Undefined
      end
  | _ => Ret JS.Undefined
  end.

(** ** The instance *)

(** The three private fields of the class. *)
Record AIMSClientInstance : Type := mkInstance {
  this_client : AlApiClient;
  this_serviceName : string;
  this_environment : string
}.

Section Constructor.

(** The client used when the constructor is given none. *)
Variable AlDefaultClient : AlApiClient.

(** [constructor(client = null)]: the field initialisers, then
    [this.client = client || AlDefaultClient]. *)
Definition new_AIMSClientInstance (client : option AlApiClient)
  : AIMSClientInstance :=
  {| this_client := match client with
                    | Some c => c
                    | None => AlDefaultClient
                    end;
     this_serviceName := "aims";
     this_environment := "production" |}.

End Constructor.

(** [this.environment = env]. *)
Definition write_environment (env : string) (this : AIMSClientInstance)
  : AIMSClientInstance :=
  {| this_client := this_client this;
     this_serviceName := this_serviceName this;
     this_environment := env |}.

(** The instance once a body has run against a client: what its
    assignments leave. *)
Fixpoint run_this {A : Type} (client : AlApiClient) (p : Prog A)
    (this : AIMSClientInstance) : AIMSClientInstance :=
  match p with
  | Ret _ => this
  | Throw _ => this
  | Await c k =>
      match client c with
      | Resolved v => run_this client (k v) this
      | Rejected _ => this
      end
  | Assign env k => run_this client k (write_environment env this)
  end.

Definition setProductionEnv (this : AIMSClientInstance) : Prog JS.value :=
  Assign "production" (Ret JS.Undefined).

Definition setIntegrationEnv (this : AIMSClientInstance) : Prog JS.value :=
  Assign "integration" (Ret JS.Undefined).

Local Open Scope prog_scope.

(** ** Users *)

Definition createUser (this : AIMSClientInstance)
    (accountId name email mobilePhone : string) : Prog JS.value :=
  const user <- await (Request post
    {| service_name := this_serviceName this;
       environment := this_environment this;
       account_id := Some accountId;
       path := "/users";
       params := None;
       data := Some (JS.Str
         ("{" ++ JS.quoted "name" ++ ": " ++ JS.quoted name ++ ", "
              ++ JS.quoted "email" ++ ": " ++ JS.quoted email ++ ", "
              ++ JS.quoted "mobile_phone" ++ ": " ++ JS.quoted mobilePhone
              ++ "}"));
       ttl := None;
       retry_count := None |}) ;;
  Ret user.

Definition deleteUser (this : AIMSClientInstance)
    (accountId userId : string) : Prog JS.value :=
  const userDelete <- await (Request delete
    {| service_name := this_serviceName this;
       environment := this_environment this;
       account_id := Some accountId;
       path := "/users/" ++ userId;
       params := None;
       data := None;
       ttl := None;
       retry_count := None |}) ;;
  Ret userDelete.

Definition getUserDetailsById (this : AIMSClientInstance)
    (accountId userId : string) : Prog JS.value :=
  const userDetails <- await (Request fetch
    {| service_name := this_serviceName this;
       environment := this_environment this;
       account_id := Some accountId;
       path := "/users/" ++ userId;
       params := None;
       data := None;
       ttl := None;
       retry_count := Some 5 |}) ;;
  Ret userDetails.

Definition getUserPermissions (this : AIMSClientInstance)
    (accountId userId : string) : Prog JS.value :=
  const userPermissions <- await (Request fetch
    {| service_name := this_serviceName this;
       environment := this_environment this;
       account_id := Some accountId;
       path := "/users/" ++ userId ++ "/permissions";
       params := None;
       data := None;
       ttl := None;
       retry_count := None |}) ;;
  Ret userPermissions.

Definition getUserDetails (this : AIMSClientInstance)
    (accountId userId : string) (queryParams : JS.value) : Prog JS.value :=
  const user <- await (Request fetch
    {| service_name := this_serviceName this;
       environment := this_environment this;
       account_id := Some accountId;
       path := "/users/" ++ userId;
       params := Some queryParams;
       data := None;
       ttl := None;
       retry_count := None |}) ;;
  Ret user.

Definition getUsers (this : AIMSClientInstance)
    (accountId : string) (queryParams : JS.value) : Prog JS.value :=
  const users <- await (Request fetch
    {| service_name := this_serviceName this;
       environment := this_environment this;
       account_id := Some accountId;
       path := "/users";
       params := Some queryParams;
       data := None;
       ttl := None;
       retry_count := None |}) ;;
  get users "users".

(** ** Accounts *)

Definition getAccountDetails (this : AIMSClientInstance)
    (accountId : string) : Prog JS.value :=
  const accountDetails <- await (Request fetch
    {| service_name := this_serviceName this;
       environment := this_environment this;
       account_id := Some accountId;
       path := "/account";
       params := None;
       data := None;
       ttl := None;
       retry_count := Some 5 |}) ;;
  Ret accountDetails.

Definition getManagedAccounts (this : AIMSClientInstance)
    (accountId : string) (queryParams : JS.value) : Prog JS.value :=
  const managedAccounts <- await (Request fetch
    {| service_name := this_serviceName this;
       environment := this_environment this;
       account_id := Some accountId;
       path := "/accounts/managed";
       params := Some queryParams;
       data := None;
       ttl := None;
       retry_count := Some 5 |}) ;;
  get managedAccounts "accounts".

Definition getManagedAccountIds (this : AIMSClientInstance)
    (accountId : string) (queryParams : JS.value) : Prog JS.value :=
  const managedAccountIds <- await (Request fetch
    {| service_name := this_serviceName this;
       environment := this_environment this;
       account_id := Some accountId;
       path := "/account_ids/managed";
       params := Some queryParams;
       data := None;
       ttl := None;
       retry_count := Some 5 |}) ;;
  get managedAccountIds "account_ids".

Definition requireMFA (this : AIMSClientInstance)
    (accountId : string) (mfaRequired : bool) : Prog JS.value :=
  const required <- splice (JS.Bool mfaRequired) ;;
  const account <- await (Request post
    {| service_name := this_serviceName this;
       environment := this_environment this;
       account_id := Some accountId;
       path := "/account";
       params := None;
       data := Some (JS.Str
         ("{mfa_required: " ++ required ++ "}"));
       ttl := None;
       retry_count := None |}) ;;
  Ret account.

(** ** Authentication and passwords *)

(** [authenticate] and [authenticateWithMFASessionToken] build no descriptor:
    they return the client's promise for the arguments and
    [this.environment]. *)
Definition authenticate (this : AIMSClientInstance)
    (user pass : string) (mfa : option string) : Prog JS.value :=
  await (Authenticate user pass mfa (this_environment this)).

Definition authenticateWithMFASessionToken (this : AIMSClientInstance)
    (token mfa : string) : Prog JS.value :=
  await (AuthenticateWithMFASessionToken token mfa (this_environment this)).

Definition changePassword (this : AIMSClientInstance)
    (email password newPassword : string) : Prog JS.value :=
  const changePass <- await (Request post
    {| service_name := this_serviceName this;
       environment := this_environment this;
       account_id := None;
       path := "/change_password";
       params := None;
       data := Some (JS.Str
         ("{email: " ++ email ++ ", current_password: " ++ password
            ++ ", new_password: " ++ newPassword ++ "}"));
       ttl := None;
       retry_count := None |}) ;;
  Ret changePass.

Definition tokenInfo (this : AIMSClientInstance) : Prog JS.value :=
  const tokenData <- await (Request fetch
    {| service_name := this_serviceName this;
       environment := this_environment this;
       account_id := None;
       path := "/token_info";
       params := None;
       data := None;
       ttl := None;
       retry_count := None |}) ;;
  Ret tokenData.

Definition initiateReset (this : AIMSClientInstance)
    (email returnTo : string) : Prog JS.value :=
  const reset <- await (Request post
    {| service_name := this_serviceName this;
       environment := this_environment this;
       account_id := None;
       path := "/reset_password";
       params := None;
       data := Some (JS.Str
         ("{email: " ++ email ++ ", return_to: " ++ returnTo ++ "}"));
       ttl := None;
       retry_count := None |}) ;;
  Ret reset.

Definition resetWithToken (this : AIMSClientInstance)
    (token password : string) : Prog JS.value :=
  const reset <- await (Request set
    {| service_name := this_serviceName this;
       environment := this_environment this;
       account_id := None;
       path := "/reset_password/" ++ token;
       params := None;
       data := Some (JS.Str ("{password: " ++ password ++ "}"));
       ttl := None;
       retry_count := None |}) ;;
  Ret reset.

Definition enrollMFA (this : AIMSClientInstance)
    (uri : string) (codes : JS.value) : Prog JS.value :=
  const mfa_codes <- splice codes ;;
  const mfa <- await (Request post
    {| service_name := this_serviceName this;
       environment := this_environment this;
       account_id := None;
       path := "/user/mfa/enroll";
       params := None;
       data := Some (JS.Str
         ("{mfa_uri: " ++ uri ++ ", mfa_codes: " ++ mfa_codes ++ "}"));
       ttl := None;
       retry_count := None |}) ;;
  Ret mfa.

Definition deleteMFA (this : AIMSClientInstance)
    (email : string) : Prog JS.value :=
  const mfa <- await (Request delete
    {| service_name := this_serviceName this;
       environment := this_environment this;
       account_id := None;
       path := "/user/mfa/" ++ email;
       params := None;
       data := None;
       ttl := None;
       retry_count := None |}) ;;
  Ret mfa.

(** ** Roles *)

Definition createRole (this : AIMSClientInstance)
    (accountId name : string) (permissions : JS.value) : Prog JS.value :=
  const text <- splice permissions ;;
  const createRole <- await (Request post
    {| service_name := this_serviceName this;
       environment := this_environment this;
       account_id := Some accountId;
       path := "/roles";
       params := None;
       data := Some (JS.Str
         ("{name: " ++ name ++ ", permissions: " ++ text ++ "}"));
       ttl := None;
       retry_count := None |}) ;;
  Ret createRole.

Definition deleteRole (this : AIMSClientInstance)
    (accountId roleId : string) : Prog JS.value :=
  const roleDelete <- await (Request delete
    {| service_name := this_serviceName this;
       environment := this_environment this;
       account_id := Some accountId;
       path := "/roles/" ++ roleId;
       params := None;
       data := None;
       ttl := None;
       retry_count := None |}) ;;
  Ret roleDelete.

Definition getGlobalRole (this : AIMSClientInstance)
    (roleId : string) : Prog JS.value :=
  const role <- await (Request fetch
    {| service_name := this_serviceName this;
       environment := this_environment this;
       account_id := None;
       path := "/roles/" ++ roleId;
       params := None;
       data := None;
       ttl := None;
       retry_count := None |}) ;;
  Ret role.

Definition getAccountRole (this : AIMSClientInstance)
    (accountId roleId : string) : Prog JS.value :=
  const role <- await (Request fetch
    {| service_name := this_serviceName this;
       environment := this_environment this;
       account_id := Some accountId;
       path := "/roles/" ++ roleId;
       params := None;
       data := None;
       ttl := None;
       retry_count := None |}) ;;
  Ret role.

Definition getGlobalRoles (this : AIMSClientInstance) : Prog JS.value :=
  const roles <- await (Request fetch
    {| service_name := this_serviceName this;
       environment := this_environment this;
       account_id := None;
       path := "/roles";
       params := None;
       data := None;
       ttl := None;
       retry_count := None |}) ;;
  get roles "roles".

Definition getAccountRoles (this : AIMSClientInstance)
    (accountId : string) : Prog JS.value :=
  const roles <- await (Request fetch
    {| service_name := this_serviceName this;
       environment := this_environment this;
       account_id := Some accountId;
       path := "/roles";
       params := None;
       data := None;
       ttl := None;
       retry_count := None |}) ;;
  get roles "roles".

Definition updateRole (this : AIMSClientInstance)
    (accountId name : string) (permissions : JS.value) : Prog JS.value :=
  const text <- splice permissions ;;
  const roleUpdate <- await (Request post
    {| service_name := this_serviceName this;
       environment := this_environment this;
       account_id := Some accountId;
       path := "/roles";
       params := None;
       data := Some (JS.Str
         ("{name: " ++ name ++ ", permissions: " ++ text ++ "}"));
       ttl := None;
       retry_count := None |}) ;;
  Ret roleUpdate.

Definition updateRoleName (this : AIMSClientInstance)
    (accountId name : string) : Prog JS.value :=
  const updateRole <- await (Request post
    {| service_name := this_serviceName this;
       environment := this_environment this;
       account_id := Some accountId;
       path := "/roles";
       params := None;
       data := Some (JS.Str ("{name: " ++ name ++ "}"));
       ttl := None;
       retry_count := None |}) ;;
  Ret updateRole.

Definition updateRolePermissions (this : AIMSClientInstance)
    (accountId : string) (permissions : JS.value) : Prog JS.value :=
  const text <- splice permissions ;;
  const updateRole <- await (Request post
    {| service_name := this_serviceName this;
       environment := this_environment this;
       account_id := Some accountId;
       path := "/roles";
       params := None;
       data := Some (JS.Str
         ("{permissions: " ++ text ++ "}"));
       ttl := None;
       retry_count := None |}) ;;
  Ret updateRole.

(** ** Access keys *)

Definition createAccessKey (this : AIMSClientInstance)
    (accountId userId label : string) : Prog JS.value :=
  const key <- await (Request post
    {| service_name := this_serviceName this;
       environment := this_environment this;
       account_id := Some accountId;
       path := "/users/" ++ userId ++ "/access_keys";
       params := None;
       data := Some (JS.Str
         ("{" ++ JS.quoted "label" ++ ": " ++ JS.quoted label ++ "}"));
       ttl := None;
       retry_count := None |}) ;;
  Ret key.

Definition updateAccessKey (this : AIMSClientInstance)
    (accessKeyId label : string) : Prog JS.value :=
  const key <- await (Request post
    {| service_name := this_serviceName this;
       environment := this_environment this;
       account_id := None;
       path := "/access_keys/" ++ accessKeyId;
       params := None;
       data := Some (JS.Str
         ("{" ++ JS.quoted "label" ++ ": " ++ JS.quoted label ++ "}"));
       ttl := None;
       retry_count := None |}) ;;
  Ret key.

Definition getAccessKey (this : AIMSClientInstance)
    (accessKeyId : string) : Prog JS.value :=
  const key <- await (Request fetch
    {| service_name := this_serviceName this;
       environment := this_environment this;
       account_id := None;
       path := "/access_keys/" ++ accessKeyId;
       params := None;
       data := None;
       ttl := None;
       retry_count := None |}) ;;
  Ret key.

(** [ttl: number = 60000]: an omitted [ttl] is 60000. *)
Definition getAccessKeys (this : AIMSClientInstance)
    (accountId userId : string) (ttl : option Z) : Prog JS.value :=
  const keys <- await (Request fetch
    {| service_name := this_serviceName this;
       environment := this_environment this;
       account_id := Some accountId;
       path := "/users/" ++ userId ++ "/access_keys?out=full";
       params := None;
       data := None;
       ttl := Some (match ttl with
                    | Some t => t
                    | None => 60000
                    end);
       retry_count := None |}) ;;
  get keys "access_keys".

Definition deleteAccessKey (this : AIMSClientInstance)
    (accountId userId accessKeyId : string) : Prog JS.value :=
  const keyDelete <- await (Request delete
    {| service_name := this_serviceName this;
       environment := this_environment this;
       account_id := Some accountId;
       path := "/users/" ++ userId ++ "/access_keys/" ++ accessKeyId;
       params := None;
       data := None;
       ttl := None;
       retry_count := None |}) ;;
  Ret keyDelete.

(** ** Calls on the instance *)

(** One call of an [async] method, with its arguments.  An omitted
    [queryParams] is [JS.Undefined]; an omitted [mfa] or [ttl] is [None]. *)
Inductive Invocation : Type :=
| CreateUser (accountId name email mobilePhone : string)
| DeleteUser (accountId userId : string)
| GetUserDetailsById (accountId userId : string)
| GetUserPermissions (accountId userId : string)
| GetAccountDetails (accountId : string)
| GetManagedAccounts (accountId : string) (queryParams : JS.value)
| GetManagedAccountIds (accountId : string) (queryParams : JS.value)
| RequireMFA (accountId : string) (mfaRequired : bool)
| AuthenticateUser (user pass : string) (mfa : option string)
| AuthenticateWithToken (token mfa : string)
| ChangePassword (email password newPassword : string)
| TokenInfo
| InitiateReset (email returnTo : string)
| ResetWithToken (token password : string)
| CreateRole (accountId name : string) (permissions : JS.value)
| DeleteRole (accountId roleId : string)
| GetGlobalRole (roleId : string)
| GetAccountRole (accountId roleId : string)
| GetGlobalRoles
| GetAccountRoles (accountId : string)
| UpdateRole (accountId name : string) (permissions : JS.value)
| UpdateRoleName (accountId name : string)
| UpdateRolePermissions (accountId : string) (permissions : JS.value)
| EnrollMFA (uri : string) (codes : JS.value)
| DeleteMFA (email : string)
| GetUserDetails (accountId userId : string) (queryParams : JS.value)
| GetUsers (accountId : string) (queryParams : JS.value)
| CreateAccessKey (accountId userId label : string)
| UpdateAccessKey (accessKeyId label : string)
| GetAccessKey (accessKeyId : string)
| GetAccessKeys (accountId userId : string) (ttl : option Z)
| DeleteAccessKey (accountId userId accessKeyId : string).

Definition invoke (i : Invocation) (this : AIMSClientInstance) : Prog JS.value :=
  match i with
  | CreateUser a n e m => createUser this a n e m
  | DeleteUser a u => deleteUser this a u
  | GetUserDetailsById a u => getUserDetailsById this a u
  | GetUserPermissions a u => getUserPermissions this a u
  | GetAccountDetails a => getAccountDetails this a
  | GetManagedAccounts a q => getManagedAccounts this a q
  | GetManagedAccountIds a q => getManagedAccountIds this a q
  | RequireMFA a b => requireMFA this a b
  | AuthenticateUser u p m => authenticate this u p m
  | AuthenticateWithToken t m => authenticateWithMFASessionToken this t m
  | ChangePassword e p n => changePassword this e p n
  | TokenInfo => tokenInfo this
  | InitiateReset e r => initiateReset this e r
  | ResetWithToken t p => resetWithToken this t p
  | CreateRole a n p => createRole this a n p
  | DeleteRole a r => deleteRole this a r
  | GetGlobalRole r => getGlobalRole this r
  | GetAccountRole a r => getAccountRole this a r
  | GetGlobalRoles => getGlobalRoles this
  | GetAccountRoles a => getAccountRoles this a
  | UpdateRole a n p => updateRole this a n p
  | UpdateRoleName a n => updateRoleName this a n
  | UpdateRolePermissions a p => updateRolePermissions this a p
  | EnrollMFA u c => enrollMFA this u c
  | DeleteMFA e => deleteMFA this e
  | GetUserDetails a u q => getUserDetails this a u q
  | GetUsers a q => getUsers this a q
  | CreateAccessKey a u l => createAccessKey this a u l
  | UpdateAccessKey k l => updateAccessKey this k l
  | GetAccessKey k => getAccessKey this k
  | GetAccessKeys a u t => getAccessKeys this a u t
  | DeleteAccessKey a u k => deleteAccessKey this a u k
  end.

(** The [accountId] argument of a call, for the methods that take one. *)
Definition accountId_of (i : Invocation) : option string :=
  match i with
  | CreateUser a _ _ _ | DeleteUser a _ | GetUserDetailsById a _
  | GetUserPermissions a _ | GetAccountDetails a | GetManagedAccounts a _
  | GetManagedAccountIds a _ | RequireMFA a _ | CreateRole a _ _
  | DeleteRole a _ | GetAccountRole a _ | GetAccountRoles a
  | UpdateRole a _ _ | UpdateRoleName a _ | UpdateRolePermissions a _
  | GetUserDetails a _ _ | GetUsers a _ | CreateAccessKey a _ _
  | GetAccessKeys a _ _ | DeleteAccessKey a _ _ => Some a
  | AuthenticateUser _ _ _ | AuthenticateWithToken _ _ | ChangePassword _ _ _
  | TokenInfo | InitiateReset _ _ | ResetWithToken _ _ | GetGlobalRole _
  | GetGlobalRoles | EnrollMFA _ _ | DeleteMFA _ | UpdateAccessKey _ _
  | GetAccessKey _ => None
  end.

(** The request a body starts with: the client method and the descriptor.
    The two authentication methods have none. *)
Definition request_of {A : Type} (p : Prog A) : option (Verb * APIRequestParams) :=
  match first_call p with
  | Some (Request verb d) => Some (verb, d)
  | _ => None
  end.

Definition descriptor_of {A : Type} (p : Prog A) : option APIRequestParams :=
  option_map snd (request_of p).

(** What a call on the client says about the environment and the account. *)
Definition call_environment (c : ClientCall) : string :=
  match c with
  | Request _ d => environment d
  | Authenticate _ _ _ env => env
  | AuthenticateWithMFASessionToken _ _ env => env
  end.

Definition call_account_id (c : ClientCall) : option string :=
  match c with
  | Request _ d => account_id d
  | Authenticate _ _ _ _ => None
  | AuthenticateWithMFASessionToken _ _ _ => None
  end.

(** Modelled from the spec: the number of automatic retries a descriptor asks
    of the client, whose code is not in this package.  The descriptor's
    [retryBudget] is optional, and an operation given no retry hint is one
    that is never retried: an absent [retry_count] asks for none. *)
Definition retry_budget (d : APIRequestParams) : Z :=
  match retry_count d with
  | Some n => n
  | None => 0
  end.

(** A method call of any kind: an [async] method, or one of the two setters. *)
Inductive Method : Type :=
| Async (i : Invocation)
| SetProductionEnv
| SetIntegrationEnv.

(** The body of a method, of either kind. *)
Definition body (m : Method) (this : AIMSClientInstance) : Prog JS.value :=
  match m with
  | Async i => invoke i this
  | SetProductionEnv => setProductionEnv this
  | SetIntegrationEnv => setIntegrationEnv this
  end.

(** One method call on an instance, run against the instance's client, the
    promise awaited: the instance afterwards, and the calls the client
    saw. *)
Definition call_method (m : Method) (this : AIMSClientInstance)
  : AIMSClientInstance * list ClientCall :=
  (run_this (this_client this) (body m this) this,
   fst (run (this_client this) (body m this))).

(** Method calls issued one after the other on one instance. *)
Fixpoint script (ms : list Method) (this : AIMSClientInstance)
  : AIMSClientInstance * list ClientCall :=
  match ms with
  | [] => (this, [])
  | m :: rest =>
      let (this1, calls) := call_method m this in
      let (this2, calls') := script rest this1 in
      (this2, (calls ++ calls')%list)
  end.

(** [export const AIMSClient = new AIMSClientInstance()]: the instance the
    module exports, on the default client. *)
Definition AIMSClient (AlDefaultClient : AlApiClient) : AIMSClientInstance :=
  new_AIMSClientInstance AlDefaultClient None.

(** ** Vocabulary of the specification *)

(** The operations the specification calls idempotent reads: account
    details, managed accounts, managed account ids, user by id, and the
    access-key listing. *)
Definition idempotent_read (i : Invocation) : bool :=
  match i with
  | GetAccountDetails _ | GetManagedAccounts _ _ | GetManagedAccountIds _ _
  | GetUserDetailsById _ _ | GetAccessKeys _ _ _ => true
  | _ => false
  end.

(** A request that changes something at the service: anything but a fetch. *)
Definition mutating (verb : Verb) : bool :=
  match verb with
  | fetch => false
  | post | set | delete => true
  end.

(** A request that creates or updates: the ones sent with [post] or [set]. *)
Definition creates_or_updates (verb : Verb) : bool :=
  match verb with
  | post | set => true
  | fetch | delete => false
  end.

(** The list operations and the envelope field each is said to unwrap. *)
Definition envelope (i : Invocation) : option string :=
  match i with
  | GetManagedAccounts _ _ => Some "accounts"
  | GetManagedAccountIds _ _ => Some "account_ids"
  | GetGlobalRoles => Some "roles"
  | GetAccountRoles _ => Some "roles"
  | GetUsers _ _ => Some "users"
  | GetAccessKeys _ _ _ => Some "access_keys"
  | _ => None
  end.

(** User, role and access-key CRUD, the global role reads apart. *)
Definition scoped_crud (i : Invocation) : bool :=
  match i with
  | CreateUser _ _ _ _ | DeleteUser _ _ | GetUserDetailsById _ _
  | GetUserPermissions _ _ | GetUserDetails _ _ _ | GetUsers _ _
  | CreateRole _ _ _ | DeleteRole _ _ | GetAccountRole _ _
  | GetAccountRoles _ | UpdateRole _ _ _ | UpdateRoleName _ _
  | UpdateRolePermissions _ _
  | CreateAccessKey _ _ _ | UpdateAccessKey _ _ | GetAccessKey _
  | GetAccessKeys _ _ _ | DeleteAccessKey _ _ _ => true
  | _ => false
  end.

(** The documented global operations: global role fetch and list,
    token-info, and the two ways to authenticate. *)
Definition documented_global (i : Invocation) : bool :=
  match i with
  | GetGlobalRole _ | GetGlobalRoles | TokenInfo
  | AuthenticateUser _ _ _ | AuthenticateWithToken _ _ => true
  | _ => false
  end.

(** A method that fails locally: its body throws without a call on the
    client. *)
Definition fails_locally {A : Type} (p : Prog A) : Prop :=
  exists f, p = Throw f.

(** ** Scenario data *)

(** A client that answers every call with the empty object. *)
Definition empty_object_client : AlApiClient :=
  fun _ => Resolved (JS.Obj []).

Definition key_k1 : JS.value :=
  JS.Obj [("id", JS.Str "k1"); ("label", JS.Str "api")].

Definition access_keys_response : JS.value :=
  JS.Obj [("access_keys", JS.Arr [key_k1])].


(** The descriptors of three calls on the exported instance:
    [getAccountDetails("1000")], [getAccessKeys("1000", "u-1", 60000)] and
    [deleteUser("1000", "u-1")]. *)
Definition account_1000_descriptor : APIRequestParams :=
  {| service_name := "aims"; environment := "production";
     account_id := Some "1000"; path := "/account";
     params := None; data := None; ttl := None; retry_count := Some 5 |}.

Definition keys_u1_descriptor : APIRequestParams :=
  {| service_name := "aims"; environment := "production";
     account_id := Some "1000"; path := "/users/u-1/access_keys?out=full";
     params := None; data := None; ttl := Some 60000; retry_count := None |}.

Definition delete_u1_descriptor : APIRequestParams :=
  {| service_name := "aims"; environment := "production";
     account_id := Some "1000"; path := "/users/u-1";
     params := None; data := None; ttl := None; retry_count := None |}.

(** ** Statements of the specification, and the vocabulary to amend them *)

(** The retry policy as the specification words it, at one call: an
    idempotent read asks for five attempts, a mutating request for none. *)
Definition retry_policy_as_specified (i : Invocation)
    (this : AIMSClientInstance) : Prop :=
  forall verb d,
    request_of (invoke i this) = Some (verb, d) ->
    (idempotent_read i = true -> retry_budget d = 5)
    /\ (mutating verb = true -> retry_budget d = 0).

(** The four reads whose literal has [retry_count: 5]. *)
Definition retried_read (i : Invocation) : bool :=
  match i with
  | GetAccountDetails _ | GetManagedAccounts _ _ | GetManagedAccountIds _ _
  | GetUserDetailsById _ _ => true
  | _ => false
  end.

Definition lists_access_keys (i : Invocation) : bool :=
  match i with
  | GetAccessKeys _ _ _ => true
  | _ => false
  end.

(** The collection unwrap as the specification words it, at one call: an
    empty collection under the envelope field is returned as it is, and an
    answer without the field makes the call fail. *)
Definition unwrap_as_specified (i : Invocation) (this : AIMSClientInstance)
    (client : AlApiClient) : Prop :=
  forall name c props,
    envelope i = Some name ->
    first_call (invoke i this) = Some c ->
    client c = Resolved (JS.Obj props) ->
    (JS.lookup name props = Some (JS.Arr []) ->
     snd (run client (invoke i this)) = Resolved (JS.Arr []))
    /\ (JS.lookup name props = None ->
        exists f, snd (run client (invoke i this)) = Rejected f).

(** Validation as the specification words it, at one call: with the empty
    string for account id the call fails locally. *)
Definition validation_as_specified (i : Invocation)
    (this : AIMSClientInstance) : Prop :=
  accountId_of i = Some EmptyString -> fails_locally (invoke i this).

(** The payload as the specification words it, at one call: a create or
    update request carries a mapping of field names to values, any other
    request carries nothing. *)
Definition payload_as_specified (i : Invocation)
    (this : AIMSClientInstance) : Prop :=
  forall verb d,
    request_of (invoke i this) = Some (verb, d) ->
    if creates_or_updates verb
    then exists props, data d = Some (JS.Obj props)
    else data d = None.

(** The payload of the [createUser] scenario, as the specification writes
    it, and as the text the template produces: the pieces between the double
    quotes, joined by double quotes. *)
Definition bob_payload_as_specified : JS.value :=
  JS.Obj [("name", JS.Str "Bob Dobalina");
          ("email", JS.Str "bob@example.com");
          ("mobile_phone", JS.Str "123-555-0123")].

Definition bob_payload_text : string :=
  String.concat JS.dquote
    ["{"; "name"; ": "; "Bob Dobalina"; ", ";
     "email"; ": "; "bob@example.com"; ", ";
     "mobile_phone"; ": "; "123-555-0123"; "}"].

(** A path that has [segment] in it. *)
Fixpoint contains (segment path : string) : bool :=
  if String.prefix segment path then true
  else match path with
       | EmptyString => false
       | String _ rest => contains segment rest
       end.

(** The descriptor of [createUser("1000", "Bob Dobalina", "bob@example.com",
    "123-555-0123")] on the exported instance. *)
Definition bob_descriptor : APIRequestParams :=
  {| service_name := "aims"; environment := "production";
     account_id := Some "1000"; path := "/users";
     params := None; data := Some (JS.Str bob_payload_text);
     ttl := None; retry_count := None |}.

(** The instance after a sequence of method calls. *)
Definition after (ms : list Method) (this : AIMSClientInstance)
  : AIMSClientInstance :=
  fst (script ms this).

(** The service name a call on the client carries: the descriptor's; the two
    authentication calls carry none. *)
Definition call_service_name (c : ClientCall) : option string :=
  match c with
  | Request _ d => Some (service_name d)
  | Authenticate _ _ _ _ => None
  | AuthenticateWithMFASessionToken _ _ _ => None
  end.

(** The two methods that hand their arguments to the client's own
    authentication calls. *)
Definition authenticates (i : Invocation) : bool :=
  match i with
  | AuthenticateUser _ _ _ | AuthenticateWithToken _ _ => true
  | _ => false
  end.

(** ** Vocabulary of the code *)

(** The resource ids a call splices into its path template: [userId],
    [roleId], [accessKeyId], the reset [token], the [email] of an MFA
    device.  The account id is no part of the path. *)
Definition path_ids (i : Invocation) : list string :=
  match i with
  | DeleteUser _ u | GetUserDetailsById _ u | GetUserPermissions _ u
  | GetUserDetails _ u _ | CreateAccessKey _ u _ | GetAccessKeys _ u _ => [u]
  | ResetWithToken t _ => [t]
  | DeleteRole _ r | GetGlobalRole r | GetAccountRole _ r => [r]
  | DeleteMFA e => [e]
  | UpdateAccessKey k _ | GetAccessKey k => [k]
  | DeleteAccessKey _ u k => [u; k]
  | _ => []
  end.

(** The [queryParams] argument of a call, for the methods that take one. *)
Definition queryParams_of (i : Invocation) : option JS.value :=
  match i with
  | GetManagedAccounts _ q | GetManagedAccountIds _ q
  | GetUserDetails _ _ q | GetUsers _ q => Some q
  | _ => None
  end.

Definition is_async (m : Method) : bool :=
  match m with
  | Async _ => true
  | SetProductionEnv | SetIntegrationEnv => false
  end.

(** The piece of text that, inside a [name] given to [createUser], closes
    the name and opens an [email] field. *)
Definition closes_name_opens_email : string :=
  JS.dquote ++ ", " ++ JS.quoted "email" ++ ": " ++ JS.dquote.

(** The value a call splices into its payload with [${...}], for the
    methods whose argument is not typed as a string: [permissions],
    [codes]. *)
Definition spliced (i : Invocation) : option JS.value :=
  match i with
  | CreateRole _ _ p | UpdateRole _ _ p | UpdateRolePermissions _ p => Some p
  | EnrollMFA _ codes => Some codes
  | _ => None
  end.

(** A call whose payload can be written: it splices nothing of that kind,
    or a value that has a text. *)
Definition printable (i : Invocation) : bool :=
  match spliced i with
  | Some v => match JS.ToString v with
              | Some _ => true
              | None => false
              end
  | None => true
  end.

(** A method call that reaches the client. *)
Definition makes_call (m : Method) : bool :=
  match m with
  | Async i => printable i
  | SetProductionEnv | SetIntegrationEnv => false
  end.

(** The service name as the specification words it, at one call: the call
    the client sees is made with service name [aims]. *)
Definition service_name_as_specified (i : Invocation)
    (this : AIMSClientInstance) : Prop :=
  option_map call_service_name (first_call (invoke i this))
  = Some (Some "aims").

(** * Properties *)

(** ** How a body runs *)

Lemma run_get_makes_no_call (client : AlApiClient) (response : JS.value)
    (name : string) :
  fst (run client (get response name)) = [].
Proof.
  destruct response; simpl; try reflexivity.
  destruct (JS.lookup name props); reflexivity.
Qed.

Lemma run_this_get (client : AlApiClient) (response : JS.value)
    (name : string) (this : AIMSClientInstance) :
  run_this client (get response name) this = this.
Proof.
  destruct response; simpl; try reflexivity.
  destruct (JS.lookup name props); reflexivity.
Qed.

Lemma get_of_object (client : AlApiClient) (props : list (string * JS.value))
    (name : string) :
  snd (run client (get (JS.Obj props) name))
  = Resolved (match JS.lookup name props with
              | Some v => v
              | None => JS.Undefined
              end).
Proof.
  simpl. destruct (JS.lookup name props); reflexivity.
Qed.

Lemma run_await (A : Type) (client : AlApiClient) (c : ClientCall)
    (k : JS.value -> Prog A) (v : JS.value) :
  client c = Resolved v ->
  run client (Await c k) = (c :: fst (run client (k v)), snd (run client (k v))).
Proof.
  intros Hc. simpl. rewrite Hc. destruct (run client (k v)); reflexivity.
Qed.

(** Case analysis on a call: the method, and for the four methods that
    splice a value of any type, whether it has a text. *)
Ltac each_method i :=
  destruct i; unfold printable, spliced, invoke, createRole, updateRole,
    updateRolePermissions, enrollMFA, splice in *;
  try match goal with
      | |- context [JS.ToString ?v] => destruct (JS.ToString v) eqn:?
      | _ : context [JS.ToString ?v] |- _ => destruct (JS.ToString v) eqn:?
      end;
  simpl in *.

(** The shape of every body.  Unless it splices a value that has no text,
    in which case it throws before anything else, a method starts with its
    one call on the client, made with the account id it was given, if any,
    the instance's environment and, in a descriptor, the instance's service
    name; with the answer it returns, at once or after one property read. *)
Lemma invoke_shape (this : AIMSClientInstance) (i : Invocation) :
  (printable i = true
   /\ exists c k,
        invoke i this = Await c k
        /\ call_account_id c = accountId_of i
        /\ call_environment c = this_environment this
        /\ call_service_name c
           = (if authenticates i then None else Some (this_serviceName this))
        /\ forall v, k v = Ret v \/ exists name, k v = get v name)
  \/ (printable i = false /\ invoke i this = Throw TypeError).
Proof.
  each_method i;
    first [ right; split; reflexivity
          | left; split; [reflexivity|]; eexists; eexists;
            repeat split; intros v; first [ left; reflexivity
                                          | right; eexists; reflexivity ] ].
Qed.

Lemma first_call_when_printable (this : AIMSClientInstance) (i : Invocation) :
  (if printable i then first_call (invoke i this) <> None
   else invoke i this = Throw TypeError).
Proof.
  destruct (invoke_shape this i) as [(-> & c & k & -> & _)|(-> & ->)];
    [discriminate|reflexivity].
Qed.

(** Awaited, a method calls the client for its first call and for nothing
    else, however the client answers, and leaves the instance as it was. *)
Lemma invoke_runs (this that : AIMSClientInstance) (i : Invocation)
    (client : AlApiClient) :
  fst (run client (invoke i this))
  = match first_call (invoke i this) with
    | Some c => [c]
    | None => []
    end
  /\ run_this client (invoke i this) that = that.
Proof.
  destruct (invoke_shape this i) as [(_ & c & k & -> & _ & _ & _ & Hk)|(_ & ->)];
    [|split; reflexivity].
  simpl. destruct (client c) as [v|f]; [|split; reflexivity].
  destruct (Hk v) as [->|(name & ->)].
  - split; reflexivity.
  - pose proof (run_get_makes_no_call client v name) as Hg.
    destruct (run client (get v name)) as [calls r]. simpl in Hg. subst calls.
    split; [reflexivity|apply run_this_get].
Qed.

(** ** Retry budgets *)

(** C1, counterexample: the access-key listing is one of the specification's
    idempotent reads, yet [getAccessKeys("1000", "u-1")] builds a descriptor
    without [retry_count]; its retry budget is not 5. *)
Lemma access_key_listing_has_no_retry_budget :
  ~ retry_policy_as_specified (GetAccessKeys "1000" "u-1" None)
      (AIMSClient empty_object_client).
Proof.
  intros H.
  destruct (H fetch _ eq_refl) as [Hread _].
  specialize (Hread eq_refl). discriminate Hread.
Qed.

(** C1, as the code has it: account details, managed accounts, managed
    account ids and user-by-id carry [retry_count: 5]; the access-key listing
    carries no [retry_count], only a cache TTL; every mutating request
    (post, set, delete) carries no [retry_count], a retry budget of zero. *)
Theorem retry_budget_by_operation (this : AIMSClientInstance) (i : Invocation)
    (verb : Verb) (d : APIRequestParams) :
  request_of (invoke i this) = Some (verb, d) ->
  (retried_read i = true -> retry_count d = Some 5 /\ retry_budget d = 5)
  /\ (lists_access_keys i = true ->
      retry_count d = None /\ exists t, ttl d = Some t)
  /\ (mutating verb = true -> retry_count d = None /\ retry_budget d = 0).
Proof.
  intros H.
  each_method i; try discriminate H;
    injection H as <- <-; simpl;
    repeat split; intros; try discriminate; try reflexivity;
    eexists; reflexivity.
Qed.

Lemma retry_budget_by_operation_witness :
  (retry_count account_1000_descriptor = Some 5
   /\ retry_budget account_1000_descriptor = 5)
  /\ (retry_count keys_u1_descriptor = None
      /\ exists t, ttl keys_u1_descriptor = Some t)
  /\ (retry_count delete_u1_descriptor = None
      /\ retry_budget delete_u1_descriptor = 0).
Proof.
  pose (this := AIMSClient empty_object_client).
  split; [|split].
  - exact (proj1 (retry_budget_by_operation this (GetAccountDetails "1000")
                    fetch account_1000_descriptor eq_refl) eq_refl).
  - exact (proj1 (proj2 (retry_budget_by_operation this
                    (GetAccessKeys "1000" "u-1" (Some 60000)) fetch
                    keys_u1_descriptor eq_refl)) eq_refl).
  - exact (proj2 (proj2 (retry_budget_by_operation this
                    (DeleteUser "1000" "u-1") delete delete_u1_descriptor
                    eq_refl)) eq_refl).
Defined.

(** ** Unwrapping list answers *)

(** What a list method resolves to when the client answers with an object:
    the envelope field, or [undefined] when the object has none. *)
Lemma list_method_reads_envelope (this : AIMSClientInstance)
    (client : AlApiClient) (i : Invocation) (name : string) (c : ClientCall)
    (props : list (string * JS.value)) :
  envelope i = Some name ->
  first_call (invoke i this) = Some c ->
  client c = Resolved (JS.Obj props) ->
  snd (run client (invoke i this))
  = Resolved (match JS.lookup name props with
              | Some v => v
              | None => JS.Undefined
              end).
Proof.
  intros He Hc Hr.
  destruct i; simpl in He; try discriminate He;
    injection He as <-; simpl in Hc; injection Hc as <-;
    unfold invoke, getManagedAccounts, getManagedAccountIds, getGlobalRoles,
      getAccountRoles, getUsers, getAccessKeys, await, bind;
    rewrite (run_await _ _ _ _ _ Hr); cbn [snd];
    apply get_of_object.
Qed.

(** C2, counterexample: [getUsers("1000")] against a client that answers
    with the empty object resolves (to [undefined]); it does not fail. *)
Lemma absent_envelope_field_is_no_failure :
  ~ unwrap_as_specified (GetUsers "1000" JS.Undefined)
      (AIMSClient empty_object_client) empty_object_client.
Proof.
  intros H.
  destruct (H "users" _ [] eq_refl eq_refl eq_refl) as [_ Habsent].
  destruct (Habsent eq_refl) as [f Hf]. discriminate Hf.
Qed.

(** C2, as the code has it: for every list operation (managed accounts,
    managed account ids, global roles, account roles, users, access keys)
    and an object answer, an empty collection under the envelope field is
    returned as the empty sequence, and an answer without the field makes
    the call resolve to [undefined]; nothing is raised. *)
Theorem unwrap_envelope_field (this : AIMSClientInstance)
    (client : AlApiClient) (i : Invocation) (name : string) (c : ClientCall)
    (props : list (string * JS.value)) :
  envelope i = Some name ->
  first_call (invoke i this) = Some c ->
  client c = Resolved (JS.Obj props) ->
  (JS.lookup name props = Some (JS.Arr []) ->
   snd (run client (invoke i this)) = Resolved (JS.Arr []))
  /\ (JS.lookup name props = None ->
      snd (run client (invoke i this)) = Resolved JS.Undefined).
Proof.
  intros He Hc Hr.
  rewrite (list_method_reads_envelope this client i name c props He Hc Hr).
  split; intros ->; reflexivity.
Qed.

Lemma unwrap_envelope_field_witness :
  snd (run (fun _ => Resolved (JS.Obj [("roles", JS.Arr [])]))
         (invoke GetGlobalRoles (AIMSClient empty_object_client)))
  = Resolved (JS.Arr [])
  /\ snd (run empty_object_client
            (invoke GetGlobalRoles (AIMSClient empty_object_client)))
     = Resolved JS.Undefined.
Proof.
  split.
  - exact (proj1 (unwrap_envelope_field (AIMSClient empty_object_client)
                    (fun _ => Resolved (JS.Obj [("roles", JS.Arr [])]))
                    GetGlobalRoles "roles" _ _ eq_refl eq_refl eq_refl)
             eq_refl).
  - exact (proj2 (unwrap_envelope_field (AIMSClient empty_object_client)
                    empty_object_client
                    GetGlobalRoles "roles" _ _ eq_refl eq_refl eq_refl)
             eq_refl).
Defined.

(** X4: a list method given [undefined] or [null] for an answer is rejected
    with the [TypeError] of the property read. *)
Lemma list_method_on_null_answer (this : AIMSClientInstance)
    (client : AlApiClient) (i : Invocation) (name : string) (c : ClientCall) :
  envelope i = Some name ->
  first_call (invoke i this) = Some c ->
  client c = Resolved JS.Null \/ client c = Resolved JS.Undefined ->
  snd (run client (invoke i this)) = Rejected TypeError.
Proof.
  intros He Hc Hr.
  destruct i; simpl in He; try discriminate He;
    simpl in Hc; injection Hc as <-;
    destruct Hr as [Hr|Hr]; simpl; rewrite Hr; reflexivity.
Qed.

(** ** Validation *)

(** C3, counterexample: [createUser] with the empty string for account id does not fail locally; it
    posts a descriptor whose account id is the empty string. *)
Lemma empty_account_id_is_posted :
  ~ validation_as_specified
      (CreateUser EmptyString "Bob Dobalina" "bob@example.com" "123-555-0123")
      (AIMSClient empty_object_client).
Proof.
  intros H. destruct (H eq_refl) as [f Hf]. discriminate Hf.
Qed.

(** C3, as the code has it: no operation checks its account id.  An
    account-scoped operation called with the empty string for account id
    makes its call on the client, with a descriptor whose account id is the
    empty string; a documented global operation makes its call with no
    account id; and the one way a method fails before its call is the
    [TypeError] of a payload that cannot be written ([permissions] or
    [codes] without a text), which no account id causes or prevents: no
    validation failure is ever raised. *)
Theorem no_validation_before_the_call (this : AIMSClientInstance)
    (i : Invocation) :
  (accountId_of i = Some EmptyString -> printable i = true ->
   exists verb d, first_call (invoke i this) = Some (Request verb d)
                  /\ account_id d = Some EmptyString)
  /\ (documented_global i = true ->
      exists c, first_call (invoke i this) = Some c
                /\ call_account_id c = None)
  /\ (forall f, invoke i this = Throw f ->
      f = TypeError /\ printable i = false)
  /\ (printable i = true -> ~ fails_locally (invoke i this)).
Proof.
  split; [|split; [|split]].
  - intros Ha Hp.
    each_method i; try discriminate Ha; try discriminate Hp;
      injection Ha as ->; eexists; eexists; split; reflexivity.
  - destruct i; simpl; intros H; try discriminate H;
      eexists; split; reflexivity.
  - intros f Hf.
    destruct (invoke_shape this i) as [(_ & c & k & Hi & _)|(Hp & Hi)];
      rewrite Hi in Hf; [discriminate Hf|].
    injection Hf as <-. split; [reflexivity|exact Hp].
  - intros Hp [f Hf].
    destruct (invoke_shape this i) as [(_ & c & k & Hi & _)|(Hn & _)].
    + rewrite Hi in Hf. discriminate Hf.
    + rewrite Hn in Hp. discriminate Hp.
Qed.

Lemma no_validation_before_the_call_witness :
  (exists verb d,
      first_call (invoke (CreateRole EmptyString "Power User" (JS.Obj []))
                    (AIMSClient empty_object_client))
      = Some (Request verb d)
      /\ account_id d = Some EmptyString)
  /\ (exists c,
        first_call (invoke TokenInfo (AIMSClient empty_object_client)) = Some c
        /\ call_account_id c = None)
  /\ ~ fails_locally (invoke (GetAccountDetails EmptyString)
                        (AIMSClient empty_object_client)).
Proof.
  split; [|split].
  - exact (proj1 (no_validation_before_the_call
                    (AIMSClient empty_object_client)
                    (CreateRole EmptyString "Power User" (JS.Obj [])))
             eq_refl eq_refl).
  - exact (proj1 (proj2 (no_validation_before_the_call
                           (AIMSClient empty_object_client) TokenInfo))
             eq_refl).
  - exact (proj2 (proj2 (proj2 (no_validation_before_the_call
                                  (AIMSClient empty_object_client)
                                  (GetAccountDetails EmptyString))))
             eq_refl).
Defined.

(** ** Payloads *)

(** C4, counterexample: the payload of [createUser] is a string, not a
    mapping of field names to values. *)
Lemma create_user_payload_is_a_string :
  ~ payload_as_specified
      (CreateUser "1000" "Bob Dobalina" "bob@example.com" "123-555-0123")
      (AIMSClient empty_object_client).
Proof.
  intros H. destruct (H post _ eq_refl) as [props Hp]. discriminate Hp.
Qed.

(** C4, as the code has it: every create or update request (sent with post
    or set) carries for payload a string, the method's template with the
    arguments spliced in; a request sent with fetch or delete carries no
    payload. *)
Theorem payload_by_verb (this : AIMSClientInstance) (i : Invocation)
    (verb : Verb) (d : APIRequestParams) :
  request_of (invoke i this) = Some (verb, d) ->
  if creates_or_updates verb
  then exists text, data d = Some (JS.Str text)
  else data d = None.
Proof.
  intros H.
  each_method i; try discriminate H;
    injection H as <- <-; simpl;
    first [ reflexivity | eexists; reflexivity ].
Qed.

Lemma payload_by_verb_witness :
  (exists text,
      data {| service_name := "aims"; environment := "production";
              account_id := Some "1000"; path := "/roles";
              params := None;
              data := Some (JS.Str "{name: Mega Power User}");
              ttl := None; retry_count := None |} = Some (JS.Str text))
  /\ data delete_u1_descriptor = None.
Proof.
  split.
  - exact (payload_by_verb (AIMSClient empty_object_client)
             (UpdateRoleName "1000" "Mega Power User") post _ eq_refl).
  - exact (payload_by_verb (AIMSClient empty_object_client)
             (DeleteUser "1000" "u-1") delete delete_u1_descriptor eq_refl).
Defined.

(** ** Account scoping *)

(** C5: every user, role and access-key operation that is supplied an
    account id builds a descriptor rooted under that id (the payload being
    one that can be written); whatever the operation, the account id of the
    descriptor it builds is the one supplied, and none when none is, as for
    [getAccessKey] and [updateAccessKey], which go by key id alone; and the
    documented global operations (global role fetch and list, token-info,
    authenticate) make their call with no account id. *)
Theorem account_scoping (this : AIMSClientInstance) (i : Invocation) :
  (scoped_crud i = true ->
   forall a, accountId_of i = Some a -> printable i = true ->
   exists d, descriptor_of (invoke i this) = Some d
             /\ account_id d = Some a)
  /\ (forall d, descriptor_of (invoke i this) = Some d ->
      account_id d = accountId_of i)
  /\ (documented_global i = true ->
      exists c, first_call (invoke i this) = Some c
                /\ call_account_id c = None).
Proof.
  split; [|split].
  - intros Hs a Ha Hp.
    each_method i; try discriminate Hs; try discriminate Hp;
      try discriminate Ha;
      injection Ha as ->; eexists; split; reflexivity.
  - intros d Hd.
    each_method i; try discriminate Hd; injection Hd as <-; reflexivity.
  - destruct i; simpl; intros H; try discriminate H;
      eexists; split; reflexivity.
Qed.

Lemma account_scoping_witness :
  (exists d,
      descriptor_of (invoke (GetAccountRole "1000" "r-1")
                       (AIMSClient empty_object_client)) = Some d
      /\ account_id d = Some "1000")
  /\ account_id delete_u1_descriptor
     = accountId_of (DeleteUser "1000" "u-1")
  /\ (exists c,
        first_call (invoke (GetGlobalRole "r-1")
                      (AIMSClient empty_object_client)) = Some c
        /\ call_account_id c = None).
Proof.
  split; [|split].
  - exact (proj1 (account_scoping (AIMSClient empty_object_client)
                    (GetAccountRole "1000" "r-1"))
             eq_refl "1000" eq_refl eq_refl).
  - exact (proj1 (proj2 (account_scoping (AIMSClient empty_object_client)
                           (DeleteUser "1000" "u-1")))
             delete_u1_descriptor eq_refl).
  - exact (proj2 (proj2 (account_scoping (AIMSClient empty_object_client)
                           (GetGlobalRole "r-1"))) eq_refl).
Defined.

(** ** The access-key scenario *)

(** C6, counterexample: the descriptor of
    [getAccessKeys("1000", "u-1", 60000)] has no [retry_count]; its retry
    budget is not 5. *)
Lemma access_key_scenario_has_no_retry_budget :
  ~ (option_map retry_budget
       (descriptor_of (getAccessKeys (AIMSClient empty_object_client)
                         "1000" "u-1" (Some 60000)))
     = Some 5).
Proof.
  simpl. intros H. discriminate H.
Qed.

(** C6, as the code has it: [getAccessKeys("1000", "u-1", 60000)] fetches
    with path [/users/u-1/access_keys?out=full], account id ["1000"], cache
    TTL 60000 and no [retry_count]; and when the client answers
    [{access_keys: [{id: "k1", label: "api"}]}] the call resolves to the
    one-element sequence [[{id: "k1", label: "api"}]]. *)
Theorem get_access_keys_scenario (client : AlApiClient) :
  request_of (getAccessKeys (AIMSClient client) "1000" "u-1" (Some 60000))
  = Some (fetch, keys_u1_descriptor)
  /\ (client (Request fetch keys_u1_descriptor)
      = Resolved access_keys_response ->
      run (this_client (AIMSClient client))
        (getAccessKeys (AIMSClient client) "1000" "u-1" (Some 60000))
      = ([Request fetch keys_u1_descriptor], Resolved (JS.Arr [key_k1]))).
Proof.
  split; [reflexivity|].
  intros Hc. simpl.
  change (client (Request fetch keys_u1_descriptor)
          = Resolved access_keys_response) in Hc.
  unfold keys_u1_descriptor in Hc. rewrite Hc. reflexivity.
Qed.

Lemma get_access_keys_scenario_witness :
  run (fun _ => Resolved access_keys_response)
    (getAccessKeys (AIMSClient (fun _ => Resolved access_keys_response))
       "1000" "u-1" (Some 60000))
  = ([Request fetch keys_u1_descriptor], Resolved (JS.Arr [key_k1])).
Proof.
  exact (proj2 (get_access_keys_scenario
                  (fun _ => Resolved access_keys_response)) eq_refl).
Defined.

(** ** The create-user scenario *)

(** C7, counterexample: the payload of [createUser("1000", "Bob Dobalina",
    "bob@example.com", "123-555-0123")] is not the mapping
    [{name, email, mobile_phone}]. *)
Lemma bob_payload_is_text_not_a_mapping :
  ~ (option_map data
       (descriptor_of (createUser (AIMSClient empty_object_client)
                         "1000" "Bob Dobalina" "bob@example.com"
                         "123-555-0123"))
     = Some (Some bob_payload_as_specified)).
Proof.
  simpl. intros H. discriminate H.
Qed.

(** C7, as the code has it: [createUser("1000", "Bob Dobalina",
    "bob@example.com", "123-555-0123")] posts with path [/users], account id
    ["1000"], no [retry_count] (a retry budget of zero), and for payload
    the string
    [{"name": "Bob Dobalina", "email": "bob@example.com", "mobile_phone": "123-555-0123"}]. *)
Theorem create_user_scenario (client : AlApiClient) :
  request_of (createUser (AIMSClient client) "1000" "Bob Dobalina"
                "bob@example.com" "123-555-0123")
  = Some (post, bob_descriptor)
  /\ retry_budget bob_descriptor = 0.
Proof.
  split; reflexivity.
Qed.

(** ** Role updates *)

(** C8: the three role-update methods take no role id and post to [/roles],
    the path of [createRole], whenever they post at all; [updateRole]
    builds the very request of [createRole].  The methods that read or
    delete one role do put its id in the path. *)
Theorem update_role_paths_name_no_role (this : AIMSClientInstance)
    (accountId name roleId : string) (permissions : JS.value) :
  option_map path (descriptor_of (updateRole this accountId name permissions))
  = (if printable (UpdateRole accountId name permissions)
     then Some "/roles" else None)
  /\ option_map path (descriptor_of (updateRoleName this accountId name))
     = Some "/roles"
  /\ option_map path
       (descriptor_of (updateRolePermissions this accountId permissions))
     = (if printable (UpdateRolePermissions accountId permissions)
        then Some "/roles" else None)
  /\ request_of (updateRole this accountId name permissions)
     = request_of (createRole this accountId name permissions)
  /\ option_map path (descriptor_of (getAccountRole this accountId roleId))
     = Some ("/roles/" ++ roleId)
  /\ option_map path (descriptor_of (deleteRole this accountId roleId))
     = Some ("/roles/" ++ roleId).
Proof.
  unfold printable, spliced, updateRole, createRole, updateRolePermissions,
    splice.
  destruct (JS.ToString permissions); repeat split.
Qed.

(** The path of a role update has no room for a role id, whatever it is. *)
Lemma update_role_name_path_lacks_the_role :
  option_map (fun d => contains "r-1" (path d))
    (descriptor_of (updateRoleName (AIMSClient empty_object_client)
                      "1000" "Mega Power User"))
  = Some false
  /\ option_map (fun d => contains "r-1" (path d))
       (descriptor_of (getAccountRole (AIMSClient empty_object_client)
                         "1000" "r-1"))
     = Some true.
Proof.
  split; reflexivity.
Qed.

(** ** The environment *)

Lemma call_method_async (i : Invocation) (this : AIMSClientInstance) :
  call_method (Async i) this
  = (this, match first_call (invoke i this) with
           | Some c => [c]
           | None => []
           end).
Proof.
  unfold call_method, body.
  destruct (invoke_runs this this i (this_client this)) as [-> ->].
  reflexivity.
Qed.

Lemma first_call_environment (this : AIMSClientInstance) (i : Invocation) :
  option_map call_environment (first_call (invoke i this))
  = (if printable i then Some (this_environment this) else None).
Proof.
  destruct (invoke_shape this i)
    as [(-> & c & k & -> & _ & He & _)|(-> & ->)]; [|reflexivity].
  simpl. rewrite He. reflexivity.
Qed.

Lemma script_cons (m : Method) (ms : list Method) (this : AIMSClientInstance) :
  script (m :: ms) this
  = (fst (script ms (fst (call_method m this))),
     (snd (call_method m this)
        ++ snd (script ms (fst (call_method m this))))%list).
Proof.
  unfold call_method. simpl.
  match goal with
  | |- context [script ms ?that] => destruct (script ms that)
  end.
  reflexivity.
Qed.

Lemma async_call_environment (i : Invocation) (this : AIMSClientInstance) :
  map call_environment (snd (call_method (Async i) this))
  = (if printable i then [this_environment this] else []).
Proof.
  rewrite call_method_async. cbn [snd].
  pose proof (first_call_environment this i) as He.
  destruct (first_call (invoke i this)); destruct (printable i);
    simpl in He |- *; congruence.
Qed.

(** C9: on one instance, [setIntegrationEnv], a request, [setProductionEnv],
    another request, each awaited: the client sees the first request tagged
    [integration] and the second tagged [production], whatever the two
    operations are and whatever the environment was before.  (A method
    whose payload cannot be written makes no request, and leaves no tag.) *)
Theorem environment_switch_is_sequential (this : AIMSClientInstance)
    (i1 i2 : Invocation) :
  map call_environment
    (snd (script [SetIntegrationEnv; Async i1; SetProductionEnv; Async i2]
            this))
  = ((if printable i1 then ["integration"] else [])
       ++ (if printable i2 then ["production"] else []))%list
  /\ (printable i1 = true -> printable i2 = true ->
      map call_environment
        (snd (script [SetIntegrationEnv; Async i1; SetProductionEnv; Async i2]
                this))
      = ["integration"; "production"]).
Proof.
  assert (H : map call_environment
                (snd (script [SetIntegrationEnv; Async i1;
                              SetProductionEnv; Async i2] this))
              = ((if printable i1 then ["integration"] else [])
                   ++ (if printable i2 then ["production"] else []))%list).
  { rewrite !script_cons. cbn [snd script].
    rewrite !map_app, !async_call_environment, !call_method_async.
    cbn. rewrite app_nil_r. reflexivity. }
  split; [exact H|].
  intros H1 H2. rewrite H, H1, H2. reflexivity.
Qed.

Lemma environment_switch_is_sequential_witness :
  map call_environment
    (snd (script [SetIntegrationEnv; Async (GetAccountDetails "1000");
                  SetProductionEnv; Async (GetAccountDetails "1000")]
            (AIMSClient empty_object_client)))
  = ["integration"; "production"].
Proof.
  exact (proj2 (environment_switch_is_sequential
                  (AIMSClient empty_object_client)
                  (GetAccountDetails "1000") (GetAccountDetails "1000"))
           eq_refl eq_refl).
Defined.

(** The setters write the environment and nothing else; an [async] method
    writes nothing. *)
Lemma call_method_keeps_client_and_service (m : Method)
    (this : AIMSClientInstance) :
  this_client (fst (call_method m this)) = this_client this
  /\ this_serviceName (fst (call_method m this)) = this_serviceName this.
Proof.
  destruct m; [rewrite call_method_async| |]; split; reflexivity.
Qed.

Lemma after_cons (m : Method) (ms : list Method) (this : AIMSClientInstance) :
  after (m :: ms) this = after ms (fst (call_method m this)).
Proof.
  unfold after. rewrite script_cons. reflexivity.
Qed.

Lemma after_keeps_service_name (ms : list Method) :
  forall this, this_serviceName (after ms this) = this_serviceName this.
Proof.
  induction ms as [|m ms IH]; intros this; [reflexivity|].
  rewrite after_cons, IH. apply call_method_keeps_client_and_service.
Qed.

Lemma first_call_service_name (this : AIMSClientInstance) (i : Invocation) :
  option_map call_service_name (first_call (invoke i this))
  = (if printable i
     then Some (if authenticates i then None else Some (this_serviceName this))
     else None).
Proof.
  destruct (invoke_shape this i)
    as [(-> & c & k & -> & _ & _ & Hs & _)|(-> & ->)]; [|reflexivity].
  simpl. rewrite Hs. reflexivity.
Qed.

(** C10, counterexample: the call [authenticate] makes on the client has no
    service name in it. *)
Lemma authenticate_names_no_service :
  ~ service_name_as_specified (AuthenticateUser "bob" "hunter2" None)
      (AIMSClient empty_object_client).
Proof.
  unfold service_name_as_specified. simpl. intros H. discriminate H.
Qed.

(** C10, as the code has it: a new instance has environment [production];
    on an instance that has been through any sequence of method calls,
    every operation that makes its call makes it with the instance's
    current environment, and with service name [aims] when the call is a
    request with a descriptor ([authenticate] and
    [authenticateWithMFASessionToken] hand the client their arguments and
    the environment, no service name); running an [async] method against
    any answer of the client leaves the instance as it was; the two setters
    leave the client and the service name as they were. *)
Theorem service_and_environment_invariant (AlDefaultClient : AlApiClient)
    (client : option AlApiClient) (ms : list Method) (i : Invocation) :
  this_environment (new_AIMSClientInstance AlDefaultClient client)
  = "production"
  /\ option_map call_environment
       (first_call
          (invoke i (after ms (new_AIMSClientInstance AlDefaultClient client))))
     = (if printable i
        then Some (this_environment
                     (after ms (new_AIMSClientInstance AlDefaultClient client)))
        else None)
  /\ option_map call_service_name
       (first_call
          (invoke i (after ms (new_AIMSClientInstance AlDefaultClient client))))
     = (if printable i
        then Some (if authenticates i then None else Some "aims")
        else None)
  /\ fst (call_method (Async i)
            (after ms (new_AIMSClientInstance AlDefaultClient client)))
     = after ms (new_AIMSClientInstance AlDefaultClient client)
  /\ this_client (fst (call_method SetProductionEnv
                         (after ms (new_AIMSClientInstance AlDefaultClient
                                      client))))
     = this_client (after ms (new_AIMSClientInstance AlDefaultClient client))
  /\ this_client (fst (call_method SetIntegrationEnv
                         (after ms (new_AIMSClientInstance AlDefaultClient
                                      client))))
     = this_client (after ms (new_AIMSClientInstance AlDefaultClient client))
  /\ this_serviceName (after ms (new_AIMSClientInstance AlDefaultClient client))
     = "aims".
Proof.
  pose proof (after_keeps_service_name ms
                (new_AIMSClientInstance AlDefaultClient client)) as Hs.
  simpl in Hs.
  split; [reflexivity|]. split; [apply first_call_environment|].
  split; [rewrite first_call_service_name, Hs; reflexivity|].
  split; [rewrite call_method_async; reflexivity|].
  repeat split. exact Hs.
Qed.

(** * Further properties of the methods *)

(** ** Strings *)

Lemma append_assoc (a b c : string) : (a ++ b) ++ c = a ++ b ++ c.
Proof.
  induction a as [|x a IH]; simpl; [reflexivity|]. rewrite IH. reflexivity.
Qed.

Lemma length_append (a b : string) :
  String.length (a ++ b) = (String.length a + String.length b)%nat.
Proof.
  induction a as [|x a IH]; simpl; [reflexivity|]. rewrite IH. reflexivity.
Qed.

Lemma prefix_append (a b : string) : String.prefix a (a ++ b) = true.
Proof.
  induction a as [|x a IH]; simpl; [destruct b; reflexivity|].
  destruct (ascii_dec x x) as [_|Hx]; [exact IH|]. elim Hx. reflexivity.
Qed.

Lemma contains_infix (before segment behind : string) :
  contains segment (before ++ segment ++ behind) = true.
Proof.
  induction before as [|x before IH].
  - simpl. destruct segment as [|y segment]; simpl.
    + destruct behind; reflexivity.
    + pose proof (prefix_append (String y segment) behind) as Hp.
      simpl in Hp. rewrite Hp. reflexivity.
  - change (String x before ++ segment ++ behind)
      with (String x (before ++ segment ++ behind)).
    simpl. rewrite IH.
    destruct segment as [|y segment]; [reflexivity|].
    destruct (ascii_dec y x); [|reflexivity].
    destruct (String.prefix segment (before ++ String y segment ++ behind));
      reflexivity.
Qed.

Lemma longer_is_different (a b : string) :
  a <> EmptyString -> b <> a ++ b.
Proof.
  intros Ha Hb.
  apply (f_equal String.length) in Hb. rewrite length_append in Hb.
  destruct a as [|x a]; [apply Ha; reflexivity|]. simpl in Hb. lia.
Qed.

(** ** One call, and what comes back *)

(** X1: awaited, a method calls the client at most once, whether the client
    resolves or rejects and whatever it answers: once, with its first call,
    unless its payload cannot be written, and then not at all.  The class
    has no retry, no second request and no fallback of its own. *)
Theorem each_method_calls_the_client_once (client : AlApiClient)
    (this : AIMSClientInstance) (i : Invocation) :
  List.length (fst (run client (invoke i this)))
  = (if printable i then 1 else 0)%nat
  /\ hd_error (fst (run client (invoke i this))) = first_call (invoke i this).
Proof.
  destruct (invoke_runs this this i client) as [-> _].
  destruct (invoke_shape this i) as [(-> & c & k & -> & _)|(-> & ->)];
    split; reflexivity.
Qed.

(** X3: a method that is not one of the six list methods resolves to the
    client's answer as it is, whatever the answer: nothing is checked and
    nothing is reshaped. *)
Theorem plain_method_returns_the_answer (client : AlApiClient)
    (this : AIMSClientInstance) (i : Invocation) (c : ClientCall)
    (answer : JS.value) :
  envelope i = None ->
  first_call (invoke i this) = Some c ->
  client c = Resolved answer ->
  run client (invoke i this) = ([c], Resolved answer).
Proof.
  intros He Hc Hr.
  each_method i; try discriminate He; try discriminate Hc;
    injection Hc as <-; simpl; rewrite Hr; reflexivity.
Qed.

Lemma plain_method_returns_the_answer_witness :
  run (fun _ => Resolved JS.Null)
    (invoke (AuthenticateUser "bob" "hunter2" None)
       (AIMSClient empty_object_client))
  = ([Authenticate "bob" "hunter2" None "production"], Resolved JS.Null).
Proof.
  exact (plain_method_returns_the_answer (fun _ => Resolved JS.Null)
           (AIMSClient empty_object_client)
           (AuthenticateUser "bob" "hunter2" None) _ JS.Null
           eq_refl eq_refl eq_refl).
Defined.

Lemma list_method_on_null_answer_witness :
  snd (run (fun _ => Resolved JS.Null)
         (invoke (GetAccountRoles "1000") (AIMSClient empty_object_client)))
  = Rejected TypeError.
Proof.
  exact (list_method_on_null_answer (AIMSClient empty_object_client)
           (fun _ => Resolved JS.Null) (GetAccountRoles "1000") "roles" _
           eq_refl eq_refl (or_introl eq_refl)).
Defined.

(** X5: a list method resolves to whatever the answer holds under the
    envelope field, of any type: it does not check that it is a sequence. *)
Theorem list_method_returns_the_field_unchecked (client : AlApiClient)
    (this : AIMSClientInstance) (i : Invocation) (name : string)
    (c : ClientCall) (props : list (string * JS.value)) (v : JS.value) :
  envelope i = Some name ->
  first_call (invoke i this) = Some c ->
  client c = Resolved (JS.Obj props) ->
  JS.lookup name props = Some v ->
  run client (invoke i this) = ([c], Resolved v).
Proof.
  intros He Hc Hr Hl.
  pose proof (list_method_reads_envelope this client i name c props He Hc Hr)
    as Hs.
  rewrite Hl in Hs.
  destruct (invoke_runs this this i client) as [Hcalls _].
  rewrite Hc in Hcalls.
  destruct (run client (invoke i this)) as [calls r].
  simpl in Hs, Hcalls. subst. reflexivity.
Qed.

Lemma list_method_returns_the_field_unchecked_witness :
  run (fun _ => Resolved (JS.Obj [("users", JS.Str "none")]))
    (invoke (GetUsers "1000" JS.Undefined) (AIMSClient empty_object_client))
  = ([Request fetch
        {| service_name := "aims"; environment := "production";
           account_id := Some "1000"; path := "/users";
           params := Some JS.Undefined; data := None; ttl := None;
           retry_count := None |}],
     Resolved (JS.Str "none")).
Proof.
  exact (list_method_returns_the_field_unchecked
           (fun _ => Resolved (JS.Obj [("users", JS.Str "none")]))
           (AIMSClient empty_object_client) (GetUsers "1000" JS.Undefined)
           "users" _ [("users", JS.Str "none")] (JS.Str "none")
           eq_refl eq_refl eq_refl eq_refl).
Defined.

(** ** Arguments spliced without escaping *)

(** X6: [changePassword] splices its arguments into the payload as they
    are.  A current password that contains [, new_password: ] builds the
    payload of another call, in which that text starts the new password:
    two different pairs of passwords, one and the same request. *)
Theorem change_password_payload_is_ambiguous (this : AIMSClientInstance)
    (email password middle newPassword : string) :
  changePassword this email
    (password ++ ", new_password: " ++ middle) newPassword
  = changePassword this email
      password (middle ++ ", new_password: " ++ newPassword)
  /\ newPassword <> middle ++ ", new_password: " ++ newPassword.
Proof.
  split.
  - unfold changePassword. rewrite !append_assoc. reflexivity.
  - rewrite <- append_assoc. apply longer_is_different.
    destruct middle; discriminate.
Qed.

(** X7: [createUser] does not escape double quotes.  A name that contains
    the text [", "email": "] builds the payload of another call, in which
    the name ends there and the rest is an email: two different pairs of
    name and email, one and the same request. *)
Theorem create_user_payload_is_ambiguous (this : AIMSClientInstance)
    (accountId name middle email mobilePhone : string) :
  createUser this accountId
    (name ++ closes_name_opens_email ++ middle) email mobilePhone
  = createUser this accountId
      name (middle ++ closes_name_opens_email ++ email) mobilePhone
  /\ email <> middle ++ closes_name_opens_email ++ email.
Proof.
  split.
  - unfold createUser, closes_name_opens_email, JS.quoted.
    rewrite !append_assoc. reflexivity.
  - rewrite <- append_assoc. apply longer_is_different.
    destruct middle; discriminate.
Qed.

(** X8: [createRole], [updateRole] and [updateRolePermissions] splice
    [permissions] into a template literal.  A mapping with no entry named
    [toString] prints as [[object Object]]: the request is the same
    whatever such a mapping holds, so its content never reaches the client.
    A mapping with an entry named [toString] cannot be printed: the method
    throws a [TypeError] and makes no call. *)
Theorem permissions_object_is_not_sent (this : AIMSClientInstance)
    (accountId name : string) (permissions others : list (string * JS.value)) :
  (JS.lookup "toString" permissions = None ->
   JS.lookup "toString" others = None ->
   createRole this accountId name (JS.Obj permissions)
   = createRole this accountId name (JS.Obj others)
   /\ updateRole this accountId name (JS.Obj permissions)
      = updateRole this accountId name (JS.Obj others)
   /\ updateRolePermissions this accountId (JS.Obj permissions)
      = updateRolePermissions this accountId (JS.Obj others)
   /\ option_map data
        (descriptor_of (createRole this accountId name (JS.Obj permissions)))
      = Some (Some (JS.Str
           ("{name: " ++ name ++ ", permissions: [object Object]}"))))
  /\ (JS.lookup "toString" permissions <> None ->
      createRole this accountId name (JS.Obj permissions) = Throw TypeError
      /\ updateRole this accountId name (JS.Obj permissions) = Throw TypeError
      /\ updateRolePermissions this accountId (JS.Obj permissions)
         = Throw TypeError).
Proof.
  unfold createRole, updateRole, updateRolePermissions, splice. simpl.
  split.
  - intros -> ->. repeat split.
  - destruct (JS.lookup "toString" permissions); [repeat split|].
    intros H. elim H. reflexivity.
Qed.

Lemma permissions_object_is_not_sent_witness :
  createRole (AIMSClient empty_object_client) "1000" "Power User"
    (JS.Obj [("*:own:*:*", JS.Str "allowed")])
  = createRole (AIMSClient empty_object_client) "1000" "Power User"
      (JS.Obj [])
  /\ createRole (AIMSClient empty_object_client) "1000" "Power User"
       (JS.Obj [("toString", JS.Str "allowed")])
     = Throw TypeError.
Proof.
  split.
  - exact (proj1 (proj1 (permissions_object_is_not_sent
                           (AIMSClient empty_object_client) "1000"
                           "Power User" [("*:own:*:*", JS.Str "allowed")] [])
                    eq_refl eq_refl)).
  - refine (proj1 (proj2 (permissions_object_is_not_sent
                            (AIMSClient empty_object_client) "1000"
                            "Power User" [("toString", JS.Str "allowed")] [])
                     _)).
    discriminate.
Defined.

(** ** Paths *)

Lemma contains_suffix (before segment : string) :
  contains segment (before ++ segment) = true.
Proof.
  replace (before ++ segment) with (before ++ segment ++ EmptyString).
  - apply contains_infix.
  - f_equal. induction segment as [|x segment IH]; simpl;
      [reflexivity | rewrite IH; reflexivity].
Qed.

Ltac id_is_in_path :=
  first [ exact (contains_suffix "/users/" _)
        | exact (contains_infix "/users/" _ _)
        | exact (contains_suffix "/roles/" _)
        | exact (contains_suffix "/reset_password/" _)
        | exact (contains_suffix "/user/mfa/" _)
        | exact (contains_suffix "/access_keys/" _) ].

(** X9: every resource id a method is given ([userId], [roleId],
    [accessKeyId], reset [token], MFA [email]) is in the path of its
    descriptor. *)
Theorem path_contains_every_id (this : AIMSClientInstance) (i : Invocation)
    (d : APIRequestParams) (id : string) :
  descriptor_of (invoke i this) = Some d ->
  In id (path_ids i) ->
  contains id (path d) = true.
Proof.
  intros Hd Hin.
  destruct i; simpl in Hin; try contradiction;
    simpl in Hd; injection Hd as <-; cbn [path];
    repeat (destruct Hin as [<-|Hin]; [|try contradiction]);
    try id_is_in_path.
  (* the key id of [deleteAccessKey], behind the user id *)
  change (contains accessKeyId
            ("/users/" ++ userId ++ "/access_keys/" ++ accessKeyId) = true).
  rewrite <- (append_assoc userId "/access_keys/" accessKeyId).
  rewrite <- (append_assoc "/users/" (userId ++ "/access_keys/") accessKeyId).
  apply contains_suffix.
Qed.

Lemma path_contains_every_id_witness :
  contains "k1" "/users/u-1/access_keys/k1" = true.
Proof.
  exact (path_contains_every_id (AIMSClient empty_object_client)
           (DeleteAccessKey "1000" "u-1" "k1")
           {| service_name := "aims"; environment := "production";
              account_id := Some "1000"; path := "/users/u-1/access_keys/k1";
              params := None; data := None; ttl := None;
              retry_count := None |}
           "k1" eq_refl (or_intror (or_introl eq_refl))).
Defined.

(** X10: ids are spliced into the path without escaping, so an id with a
    slash in it reaches another resource: [deleteUser] with the user id
    [u/access_keys/k] is [deleteAccessKey] of user [u] and key [k], and
    [deleteAccessKey] builds one and the same request for two different
    pairs of user id and key id. *)
Theorem delete_user_reaches_access_keys (this : AIMSClientInstance)
    (accountId userId middle accessKeyId : string) :
  deleteUser this accountId (userId ++ "/access_keys/" ++ accessKeyId)
  = deleteAccessKey this accountId userId accessKeyId
  /\ deleteAccessKey this accountId
       (userId ++ "/access_keys/" ++ middle) accessKeyId
     = deleteAccessKey this accountId
         userId (middle ++ "/access_keys/" ++ accessKeyId)
  /\ accessKeyId <> middle ++ "/access_keys/" ++ accessKeyId.
Proof.
  split; [reflexivity|]. split.
  - unfold deleteAccessKey. rewrite !append_assoc. reflexivity.
  - rewrite <- append_assoc. apply longer_is_different.
    destruct middle; discriminate.
Qed.

(** ** Hints *)

(** X11: query parameters are sent by the four methods that take them
    ([getManagedAccounts], [getManagedAccountIds], [getUserDetails],
    [getUsers]), as given, [undefined] included; a cache TTL is sent by
    [getAccessKeys] alone, 60000 when the caller gives none; no other
    request has either. *)
Theorem params_and_ttl_by_operation (this : AIMSClientInstance)
    (i : Invocation) (verb : Verb) (d : APIRequestParams) :
  request_of (invoke i this) = Some (verb, d) ->
  params d = queryParams_of i
  /\ ttl d = match i with
             | GetAccessKeys _ _ (Some t) => Some t
             | GetAccessKeys _ _ None => Some 60000
             | _ => None
             end
  /\ (verb = fetch \/ (params d = None /\ ttl d = None)).
Proof.
  intros H.
  each_method i; try discriminate H;
    injection H as <- <-; cbn [params ttl queryParams_of];
    repeat split; auto.
  destruct ttl0; reflexivity.
Qed.

Lemma params_and_ttl_by_operation_witness :
  params keys_u1_descriptor = None
  /\ ttl keys_u1_descriptor = Some 60000
  /\ (fetch = fetch
      \/ (params keys_u1_descriptor = None /\ ttl keys_u1_descriptor = None)).
Proof.
  exact (params_and_ttl_by_operation (AIMSClient empty_object_client)
           (GetAccessKeys "1000" "u-1" None) fetch keys_u1_descriptor
           eq_refl).
Defined.

(** ** Sequences of method calls *)

(** X13: over any sequence of method calls on one instance, the client sees
    one call for each [async] method whose payload can be written, and none
    for a setter. *)
Theorem script_calls_once_per_async_method (ms : list Method)
    (this : AIMSClientInstance) :
  List.length (snd (script ms this)) = List.length (filter makes_call ms).
Proof.
  revert this. induction ms as [|m ms IH]; intros this; [reflexivity|].
  rewrite script_cons. cbn [snd]. rewrite length_app, IH.
  destruct m as [i| |]; [|reflexivity|reflexivity].
  rewrite call_method_async. cbn [snd filter makes_call].
  destruct (invoke_shape this i) as [(-> & c & k & -> & _)|(-> & ->)];
    reflexivity.
Qed.

Lemma async_methods_keep_the_instance (ms : list Method)
    (this : AIMSClientInstance) :
  forallb is_async ms = true -> after ms this = this.
Proof.
  induction ms as [|m ms IH]; intros H; [reflexivity|].
  simpl in H. apply andb_prop in H as [Hm Hms].
  rewrite after_cons. destruct m; try discriminate Hm.
  rewrite call_method_async. exact (IH Hms).
Qed.

Lemma after_app (ms ms' : list Method) (this : AIMSClientInstance) :
  after (ms ++ ms') this = after ms' (after ms this).
Proof.
  revert this. induction ms as [|m ms IH]; intros this; [reflexivity|].
  rewrite <- app_comm_cons, !after_cons. apply IH.
Qed.

Lemma after_keeps_client (ms : list Method) :
  forall this, this_client (after ms this) = this_client this.
Proof.
  induction ms as [|m ms IH]; intros this; [reflexivity|].
  rewrite after_cons, IH. apply call_method_keeps_client_and_service.
Qed.

(** X14: the last setter wins.  Whatever was called before, after
    [setIntegrationEnv] (or [setProductionEnv]) and any number of [async]
    methods the environment is [integration] (or [production]), and the
    next method that makes a call makes it with that environment; the
    instance still has the client it was built with. *)
Theorem last_setter_selects_the_environment (before later : list Method)
    (this : AIMSClientInstance) (i : Invocation) :
  forallb is_async later = true ->
  this_environment (after (before ++ SetIntegrationEnv :: later) this)
  = "integration"
  /\ this_environment (after (before ++ SetProductionEnv :: later) this)
     = "production"
  /\ option_map call_environment
       (first_call
          (invoke i (after (before ++ SetIntegrationEnv :: later) this)))
     = (if printable i then Some "integration" else None)
  /\ option_map call_environment
       (first_call
          (invoke i (after (before ++ SetProductionEnv :: later) this)))
     = (if printable i then Some "production" else None)
  /\ this_client (after (before ++ SetIntegrationEnv :: later) this)
     = this_client this.
Proof.
  intros Hlater.
  assert (Hint : this_environment
                   (after (before ++ SetIntegrationEnv :: later) this)
                 = "integration").
  { rewrite after_app, after_cons, async_methods_keep_the_instance
      by exact Hlater. reflexivity. }
  assert (Hprod : this_environment
                    (after (before ++ SetProductionEnv :: later) this)
                  = "production").
  { rewrite after_app, after_cons, async_methods_keep_the_instance
      by exact Hlater. reflexivity. }
  rewrite !first_call_environment, Hint, Hprod.
  repeat split. apply after_keeps_client.
Qed.

Lemma last_setter_selects_the_environment_witness :
  this_environment
    (after ([SetProductionEnv; Async TokenInfo]
              ++ SetIntegrationEnv :: [Async GetGlobalRoles])
       (AIMSClient empty_object_client))
  = "integration".
Proof.
  exact (proj1 (last_setter_selects_the_environment
                  [SetProductionEnv; Async TokenInfo] [Async GetGlobalRoles]
                  (AIMSClient empty_object_client) TokenInfo eq_refl)).
Defined.

(** X15: on an instance built by the constructor, whatever methods are
    called in whatever order, every call the client sees is tagged
    [production] or [integration], and every request descriptor names the
    service [aims]. *)
Theorem every_call_is_tagged (AlDefaultClient : AlApiClient)
    (client : option AlApiClient) (ms : list Method) :
  Forall (fun c =>
            (call_environment c = "production"
             \/ call_environment c = "integration")
            /\ (call_service_name c = Some "aims"
                \/ call_service_name c = None))
    (snd (script ms (new_AIMSClientInstance AlDefaultClient client))).
Proof.
  assert (Hinv : forall this,
             (this_environment this = "production"
              \/ this_environment this = "integration") ->
             this_serviceName this = "aims" ->
             Forall (fun c =>
                       (call_environment c = "production"
                        \/ call_environment c = "integration")
                       /\ (call_service_name c = Some "aims"
                           \/ call_service_name c = None))
               (snd (script ms this))).
  { induction ms as [|m ms IH]; intros this Henv Hname; [constructor|].
    rewrite script_cons. cbn [snd]. apply Forall_app. split.
    - destruct m as [i| |]; [|constructor|constructor].
      rewrite call_method_async. cbn [snd].
      destruct (invoke_shape this i)
        as [(_ & c & k & -> & _ & He & Hs & _)|(_ & ->)]; [|constructor].
      constructor; [|constructor].
      rewrite He, Hs, Hname.
      split; [exact Henv|]. destruct (authenticates i); auto.
    - apply IH; destruct m; try rewrite call_method_async; simpl; auto. }
  apply Hinv; [left|]; reflexivity.
Qed.
